(** * Footer.jsx: the footer component of the site

    A shallow embedding of [src/components/Footer.jsx] and of the parts of
    its environment the component's markup goes through: the JSX rules for
    text between tags, [React.createElement], and the reading of a rendered
    tree as markup (attributes, class list, text content, static markup). *)

From Stdlib Require Import Strings.String Strings.Ascii Lists.List Bool.Bool.
From Stdlib Require Import Arith.PeanoNat micromega.Lia.
Import ListNotations.

Local Open Scope list_scope.
Local Open Scope string_scope.
Set Warnings "-register-all".

(* ================================================================== *)
(** ** Characters and strings *)

Module Chars.

Definition TAB : ascii := "009"%char.
Definition LF : ascii := "010"%char.
Definition FF : ascii := "012"%char.
Definition CR : ascii := "013"%char.
Definition SPACE : ascii := " "%char.
Definition DQUOTE : ascii := "034"%char.

Definition str (c : ascii) : string := String c "".

(** [n] spaces, as the indentation of a source line. *)
Fixpoint spaces (n : nat) : string :=
  match n with
  | O => ""
  | S k => String SPACE (spaces k)
  end.

(** [String.prototype.split(/\r\n|\n|\r/)]: [cur] is the line being read. *)
Fixpoint split_lines_from (cur s : string) : list string :=
  match s with
  | "" => [cur]
  | String c rest =>
      if Ascii.eqb c CR then
        match rest with
        | String d rest' =>
            if Ascii.eqb d LF then cur :: split_lines_from "" rest'
            else cur :: split_lines_from "" rest
        | "" => cur :: split_lines_from "" rest
        end
      else if Ascii.eqb c LF then cur :: split_lines_from "" rest
      else split_lines_from (cur ++ str c) rest
  end.

Definition split_lines (s : string) : list string := split_lines_from "" s.

(** [line.match(/[^ \t]/)]: some character is neither a space nor a tab. *)
Fixpoint has_non_blank (s : string) : bool :=
  match s with
  | "" => false
  | String c rest =>
      if Ascii.eqb c SPACE || Ascii.eqb c TAB then has_non_blank rest else true
  end.

(** [line.replace(/\t/g, " ")]. *)
Fixpoint tabs_to_spaces (s : string) : string :=
  match s with
  | "" => ""
  | String c rest =>
      String (if Ascii.eqb c TAB then SPACE else c) (tabs_to_spaces rest)
  end.

(** [line.replace(/^[ ]+/, "")]. *)
Fixpoint trim_leading_spaces (s : string) : string :=
  match s with
  | "" => ""
  | String c rest => if Ascii.eqb c SPACE then trim_leading_spaces rest else s
  end.

(** [line.replace(/[ ]+$/, "")]. *)
Fixpoint trim_trailing_spaces (s : string) : string :=
  match s with
  | "" => ""
  | String c rest =>
      match trim_trailing_spaces rest with
      | "" => if Ascii.eqb c SPACE then "" else str c
      | kept => String c kept
      end
  end.

Definition is_empty (s : string) : bool :=
  match s with "" => true | _ => false end.

(** ASCII whitespace, the separators of an HTML class attribute. *)
Definition is_ascii_whitespace (c : ascii) : bool :=
  Ascii.eqb c SPACE || Ascii.eqb c TAB || Ascii.eqb c LF
  || Ascii.eqb c FF || Ascii.eqb c CR.

(** The whitespace-separated tokens of [s]; [cur] is the token being read. *)
Fixpoint tokens_from (cur s : string) : list string :=
  match s with
  | "" => if is_empty cur then [] else [cur]
  | String c rest =>
      if is_ascii_whitespace c
      then (if is_empty cur then tokens_from "" rest
            else cur :: tokens_from "" rest)
      else tokens_from (cur ++ str c) rest
  end.

Definition tokens (s : string) : list string := tokens_from "" s.

(** The elements of a list with their indices, as a [for] loop visits them. *)
Definition indexed {A : Type} (l : list A) : list (nat * A) :=
  combine (seq 0 (List.length l)) l.

Definition is_blank (c : ascii) : bool := Ascii.eqb c SPACE || Ascii.eqb c TAB.

Definition is_line_break (c : ascii) : bool := Ascii.eqb c LF || Ascii.eqb c CR.

Fixpoint forall_chars (p : ascii -> bool) (s : string) : bool :=
  match s with
  | "" => true
  | String c rest => p c && forall_chars p rest
  end.

Fixpoint exists_char (p : ascii -> bool) (s : string) : bool :=
  match s with
  | "" => false
  | String c rest => p c || exists_char p rest
  end.

(** Layout between two tags: spaces, tabs and line breaks (LF, CR or CR LF)
    only, with one line break at least. *)
Definition is_layout (s : string) : bool :=
  forall_chars (fun c => is_blank c || is_line_break c) s
  && exists_char is_line_break s.

End Chars.

(* ================================================================== *)
(** ** Completions and the method monad

    A JavaScript call either completes normally with a value or throws;
    it runs in an ambient world (globals, heap, DOM) that it may read and
    change.  A method is a function of the world returning a completion
    and the world it leaves behind. *)

Module JS.

Inductive Completion (E A : Type) : Type :=
| Normal (value : A)
| Throw (exn : E).

Arguments Normal {E A} value.
Arguments Throw {E A} exn.

Definition M (W E A : Type) : Type := W -> Completion E A * W.

Definition ret {W E A : Type} (a : A) : M W E A := fun w => (Normal a, w).

Definition throw {W E A : Type} (e : E) : M W E A := fun w => (Throw e, w).

Definition bind {W E A B : Type} (m : M W E A) (k : A -> M W E B) : M W E B :=
  fun w =>
    match m w with
    | (Normal a, w') => k a w'
    | (Throw e, w') => (Throw e, w')
    end.

Definition completes {E A : Type} (c : Completion E A) : bool :=
  match c with Normal _ => true | Throw _ => false end.

End JS.

(* ================================================================== *)
(** ** React elements *)

Module React.

(** A rendered node: a text node, or an element with its type (a tag name
    for host elements), its props in the order they were written, and its
    children.  React keeps the children under [props.children]; they are a
    field of their own here. *)
Inductive ReactNode : Type :=
| Text (data : string)
| Element (type : string) (props : list (string * string))
          (children : list ReactNode).

(** Props that [createElement] takes out of [config]. *)
Definition RESERVED_PROPS : list string := ["key"; "ref"; "__self"; "__source"].

Definition is_reserved (name : string) : bool :=
  existsb (String.eqb name) RESERVED_PROPS.

(** [React.createElement(type, config, ...children)]; a [null] config is
    the empty list. *)
Definition createElement (type : string) (config : list (string * string))
    (children : list ReactNode) : ReactNode :=
  Element type
          (filter (fun p => negb (is_reserved (fst p))) config)
          children.

(** An instance of [React.Component]: the constructor stores [props] and
    [context]; [state] is undefined until a subclass or [setState] sets it.
    The values are JavaScript values of any kind. *)
Record Component (JsValue : Type) : Type := mkComponent {
  props : JsValue;
  context : JsValue;
  state : option JsValue
}.

Arguments mkComponent {JsValue} props context state.
Arguments props {JsValue} c.
Arguments context {JsValue} c.
Arguments state {JsValue} c.

(** [new C(props, context)] for a class [C] that extends [React.Component]
    and declares no constructor. *)
Definition construct {JsValue : Type} (props context : JsValue)
  : Component JsValue :=
  mkComponent props context None.

End React.

(* ================================================================== *)
(** ** JSX *)

Module JSX.

Import Chars React.

(** What stands between the opening and the closing tag of a JSX element:
    raw text as it is in the source file, or a nested element, already
    evaluated. *)
Inductive JSXChild : Type :=
| JSXText (raw : string)
| JSXElement (e : ReactNode).

Definition lastNonEmptyLine (lines : list string) : nat :=
  fold_left (fun last il => if has_non_blank (snd il) then fst il else last)
            (indexed lines) 0.

(** The text a JSXText contributes: lines are trimmed where they touch a
    line break, lines left empty are dropped, and the lines kept are joined
    by one space. *)
Definition cleanJSXText (raw : string) : string :=
  let lines := split_lines raw in
  let last := lastNonEmptyLine lines in
  fold_left
    (fun (acc : string) il =>
       let i := fst il in
       let isFirstLine := Nat.eqb i 0 in
       let isLastLine := Nat.eqb i (List.length lines - 1) in
       let isLastNonEmptyLine := Nat.eqb i last in
       let t := tabs_to_spaces (snd il) in
       let t := if isFirstLine then t else trim_leading_spaces t in
       let t := if isLastLine then t else trim_trailing_spaces t in
       if is_empty t then acc
       else acc ++ (if isLastNonEmptyLine then t else t ++ " "))
    (indexed lines) "".

(** The [createElement] arguments one child contributes: none for text
    that cleans to the empty string. *)
Definition child_nodes (c : JSXChild) : list ReactNode :=
  match c with
  | JSXText raw =>
      let s := cleanJSXText raw in
      if is_empty s then [] else [Text s]
  | JSXElement e => [e]
  end.

(** [<type attrs>children</type>]. *)
Definition jsx (type : string) (attrs : list (string * string))
    (children : list JSXChild) : ReactNode :=
  createElement type attrs (flat_map child_nodes children).

End JSX.

(* ================================================================== *)
(** ** The rendered tree read as markup *)

Module DOM.

Import Chars JS React.

(** The attribute a prop is written to: React spells two attributes its
    own way. *)
Definition attribute_name (prop : string) : string :=
  if String.eqb prop "className" then "class"
  else if String.eqb prop "htmlFor" then "for"
  else prop.

Definition is_element_named (tag : string) (n : ReactNode) : bool :=
  match n with
  | Text _ => false
  | Element type _ _ => String.eqb type tag
  end.


Definition attributes (n : ReactNode) : list (string * string) :=
  match n with
  | Text _ => []
  | Element _ props _ => map (fun p => (attribute_name (fst p), snd p)) props
  end.

Definition getAttribute (name : string) (n : ReactNode) : option string :=
  option_map snd (find (fun a => String.eqb (fst a) name) (attributes n)).

Definition hasAttribute (name : string) (n : ReactNode) : bool :=
  existsb (fun a => String.eqb (fst a) name) (attributes n).

Definition childNodes (n : ReactNode) : list ReactNode :=
  match n with
  | Text _ => []
  | Element _ _ children => children
  end.

(** The class names of an element: the tokens of its class attribute. *)
Definition classList (n : ReactNode) : list string :=
  match getAttribute "class" n with
  | Some v => tokens v
  | None => []
  end.

Definition has_class (c : string) (n : ReactNode) : bool :=
  existsb (String.eqb c) (classList n).

(** The text of a node: the text nodes under it, concatenated. *)
Fixpoint textContent (n : ReactNode) : string :=
  match n with
  | Text data => data
  | Element _ _ children => String.concat "" (map textContent children)
  end.

(** A node and everything under it, in the order the markup writes them. *)
Fixpoint document_order (n : ReactNode) : list ReactNode :=
  n :: match n with
       | Text _ => []
       | Element _ _ children => flat_map document_order children
       end.

(** All elements with the given tag, root included, in document order. *)
Definition elements_by_tag (tag : string) (root : ReactNode) : list ReactNode :=
  filter (is_element_named tag) (document_order root).

(** The index of the first node of [l] that satisfies [p]. *)
Fixpoint position_of (p : ReactNode -> bool) (l : list ReactNode) : option nat :=
  match l with
  | [] => None
  | x :: rest => if p x then Some 0 else option_map S (position_of p rest)
  end.

(** In [root], a node satisfying [p] is written before one satisfying [q]. *)
Definition precedes (p q : ReactNode -> bool) (root : ReactNode) : Prop :=
  exists i j x y,
    nth_error (document_order root) i = Some x /\ p x = true /\
    nth_error (document_order root) j = Some y /\ q y = true /\
    i < j.

(** [escapeTextForBrowser]. *)
Fixpoint escape (s : string) : string :=
  match s with
  | "" => ""
  | String c rest =>
      (if Ascii.eqb c DQUOTE then "&quot;"
       else if Ascii.eqb c "&"%char then "&amp;"
       else if Ascii.eqb c "'"%char then "&#x27;"
       else if Ascii.eqb c "<"%char then "&lt;"
       else if Ascii.eqb c ">"%char then "&gt;"
       else str c) ++ escape rest
  end.

(** Tags written without a closing tag; they take no children. *)
Definition omittedCloseTags : list string :=
  ["area"; "base"; "br"; "col"; "embed"; "hr"; "img"; "input"; "keygen";
   "link"; "meta"; "param"; "source"; "track"; "wbr"].

Definition is_void (tag : string) : bool :=
  existsb (String.eqb tag) omittedCloseTags.

Definition attribute_markup (a : string * string) : string :=
  " " ++ fst a ++ "=" ++ str DQUOTE ++ escape (snd a) ++ str DQUOTE.

Definition open_tag (n : ReactNode) : string :=
  match n with
  | Text _ => ""
  | Element type _ _ =>
      "<" ++ type ++ String.concat "" (map attribute_markup (attributes n))
  end.

(** [ReactDOMServer.renderToStaticMarkup]: the markup of a tree; it throws
    on a void element that was given children. *)
Fixpoint renderToStaticMarkup (n : ReactNode) : Completion string string :=
  match n with
  | Text data => Normal (escape data)
  | Element type _ children =>
      if is_void type then
        match children with
        | [] => Normal (open_tag n ++ "/>")
        | _ :: _ => Throw (type ++ " is a void element tag and must not have children")
        end
      else
        let fix all (cs : list ReactNode) : Completion string string :=
          match cs with
          | [] => Normal ""
          | c :: cs' =>
              match renderToStaticMarkup c with
              | Normal m =>
                  match all cs' with
                  | Normal ms => Normal (m ++ ms)
                  | Throw e => Throw e
                  end
              | Throw e => Throw e
              end
          end in
        match all children with
        | Normal inner => Normal (open_tag n ++ ">" ++ inner ++ "</" ++ type ++ ">")
        | Throw e => Throw e
        end
  end.

End DOM.

(* ================================================================== *)
(** ** The component *)

Module Footer.

Import Chars JS React JSX.

Section Class.

(** The JavaScript values an instance holds and the world a call runs in
    are left open: [render] looks at neither. *)
Variables JsValue World : Type.

(** [new Footer(props, context)]: the class declares no constructor, so
    the one of [React.Component] runs. *)
Definition new (props context : JsValue) : Component JsValue :=
  construct props context.

(** [render()], lines 6 to 13 of Footer.jsx.  The text between the tags is
    written as it stands in the file: a line break and the indentation of
    the next line (16 columns for the children, 12 for the closing tag). *)
Definition render (this : Component JsValue) : M World JsValue ReactNode :=
  ret
    (jsx "div" [("className", "text-center mt-5 mb-3")]
       [ JSXText (str LF ++ spaces 16);
         JSXElement (jsx "hr" [] []);
         JSXText (str LF ++ spaces 16);
         JSXElement
           (jsx "a" [("href", "https://humblepage.com");
                     ("className", "footer-link")]
              [ JSXElement
                  (jsx "small" []
                     [ JSXText "SITE BY Leprechaun Design" ]) ]);
         JSXText (str LF ++ spaces 12) ]).

End Class.

Arguments new {JsValue} props context.
Arguments render {JsValue World} this _.

(** The tree [render] returns, written out. *)
Definition small_element : ReactNode :=
  Element "small" [] [Text "SITE BY Leprechaun Design"].

Definition anchor_element : ReactNode :=
  Element "a"
          [("href", "https://humblepage.com"); ("className", "footer-link")]
          [small_element].

Definition hr_element : ReactNode := Element "hr" [] [].

Definition footer_tree : ReactNode :=
  Element "div" [("className", "text-center mt-5 mb-3")]
          [hr_element; anchor_element].

(** The static markup of the tree. *)
Definition footer_markup : string :=
  "<div class=" ++ str DQUOTE ++ "text-center mt-5 mb-3" ++ str DQUOTE ++ ">"
  ++ "<hr/>"
  ++ "<a href=" ++ str DQUOTE ++ "https://humblepage.com" ++ str DQUOTE
  ++ " class=" ++ str DQUOTE ++ "footer-link" ++ str DQUOTE ++ ">"
  ++ "<small>SITE BY Leprechaun Design</small>"
  ++ "</a></div>".

End Footer.

(* ================================================================== *)
(** ** Text between tags *)

Section Whitespace.

Import Chars JSX React.

Lemma append_empty_r (s : string) : s ++ "" = s.
Proof. induction s as [|c s IH]; simpl; congruence. Qed.

Lemma append_assoc (s t u : string) : (s ++ t) ++ u = s ++ (t ++ u).
Proof. induction s as [|c s IH]; simpl; congruence. Qed.

Lemma split_lines_from_spaces (n : nat) :
  forall cur, split_lines_from cur (spaces n) = [cur ++ spaces n].
Proof.
  induction n as [|n IH]; intros cur; simpl.
  - now rewrite append_empty_r.
  - rewrite IH. unfold str. now rewrite append_assoc.
Qed.

Lemma has_non_blank_spaces (n : nat) : has_non_blank (spaces n) = false.
Proof. induction n; simpl; auto. Qed.

Lemma tabs_to_spaces_spaces (n : nat) : tabs_to_spaces (spaces n) = spaces n.
Proof. induction n; simpl; congruence. Qed.

Lemma trim_leading_spaces_spaces (n : nat) : trim_leading_spaces (spaces n) = "".
Proof. induction n; simpl; auto. Qed.

(** A line break followed by indentation only, however deep, is dropped:
    the children of an element may be laid out one per line. *)
Lemma cleanJSXText_indentation (n : nat) :
  cleanJSXText (str LF ++ spaces n) = "".
Proof.
  unfold cleanJSXText, split_lines, lastNonEmptyLine, indexed.
  change (split_lines_from "" (str LF ++ spaces n))
    with ("" :: split_lines_from "" (spaces n)).
  rewrite split_lines_from_spaces. simpl.
  rewrite has_non_blank_spaces, tabs_to_spaces_spaces.
  now rewrite trim_leading_spaces_spaces.
Qed.

Lemma child_nodes_indentation (n : nat) :
  child_nodes (JSXText (str LF ++ spaces n)) = [].
Proof. unfold child_nodes. now rewrite cleanJSXText_indentation. Qed.

(** Text on one line, with no blank at either end to trim, is kept as is. *)
Lemma cleanJSXText_link_text :
  cleanJSXText "SITE BY Leprechaun Design" = "SITE BY Leprechaun Design".
Proof. reflexivity. Qed.

(** Words on several lines are joined by single spaces; blanks that touch
    a line break go, the others stay. *)
Example cleanJSXText_several_lines :
  cleanJSXText ("  SITE BY " ++ str LF ++ "   Leprechaun" ++ str TAB ++ str LF
                ++ "   " ++ str LF ++ " Design  ")
  = "  SITE BY Leprechaun Design  ".
Proof. reflexivity. Qed.

End Whitespace.

(* ================================================================== *)
(** ** Document order *)

Section Order.

Import React DOM.

Lemma position_of_nth (p : ReactNode -> bool) (l : list ReactNode) :
  forall i, position_of p l = Some i ->
            exists x, nth_error l i = Some x /\ p x = true.
Proof.
  induction l as [|y l IH]; intros i H; simpl in H.
  - discriminate.
  - destruct (p y) eqn:Hy.
    + injection H as <-. exists y. now split.
    + destruct (position_of p l) as [k|] eqn:Hk; simpl in H; try discriminate.
      injection H as <-. destruct (IH k eq_refl) as [x [Hx Hp]].
      exists x. now split.
Qed.

Lemma positions_precede (p q : ReactNode -> bool) (root : ReactNode) (i j : nat) :
  position_of p (document_order root) = Some i ->
  position_of q (document_order root) = Some j ->
  i < j ->
  precedes p q root.
Proof.
  intros Hp Hq Hlt.
  destruct (position_of_nth _ _ _ Hp) as [x [Hx Hpx]].
  destruct (position_of_nth _ _ _ Hq) as [y [Hy Hqy]].
  exists i, j, x, y. repeat split; assumption.
Qed.

End Order.

(* ================================================================== *)
(** ** What [render] returns *)

Section FooterProperties.

Import Chars JS React JSX DOM Footer.

Variables JsValue World : Type.

Implicit Types (this : Component JsValue) (w : World).

(** Every call returns the same tree and leaves the world as it found it. *)
Lemma render_returns this w :
  render this w = (Normal (E := JsValue) footer_tree, w).
Proof.
  unfold render, ret, jsx. cbn [flat_map].
  rewrite !child_nodes_indentation. reflexivity.
Qed.

Lemma render_value this w : fst (render this w) = Normal footer_tree.
Proof. now rewrite render_returns. Qed.

Lemma anchors_of_footer : elements_by_tag "a" footer_tree = [anchor_element].
Proof. reflexivity. Qed.

Lemma dividers_of_footer : elements_by_tag "hr" footer_tree = [hr_element].
Proof. reflexivity. Qed.

Lemma footer_static_markup :
  renderToStaticMarkup footer_tree = Normal footer_markup.
Proof. vm_compute. reflexivity. Qed.

(** C1: every call of [render] returns a tree with exactly one anchor
    element, and the href attribute of that anchor is
    https://humblepage.com. *)
Theorem render_one_anchor_href this w :
  exists tree a,
    fst (render this w) = Normal tree /\
    elements_by_tag "a" tree = [a] /\
    getAttribute "href" a = Some "https://humblepage.com".
Proof.
  exists footer_tree, anchor_element.
  split; [apply render_value | split; reflexivity].
Qed.

(** C2: the text content of the anchor element of the rendered tree is
    exactly SITE BY Leprechaun Design. *)
Theorem render_link_text this w :
  exists tree a,
    fst (render this w) = Normal tree /\
    elements_by_tag "a" tree = [a] /\
    textContent a = "SITE BY Leprechaun Design".
Proof.
  exists footer_tree, anchor_element.
  rewrite render_value, anchors_of_footer. auto.
Qed.

(** C3: the rendered tree has exactly one hr element and (exactly one
    anchor, and) the hr comes before the anchor in document order. *)
Theorem render_one_divider_before_link this w :
  exists tree hr a,
    fst (render this w) = Normal tree /\
    elements_by_tag "hr" tree = [hr] /\
    elements_by_tag "a" tree = [a] /\
    precedes (is_element_named "hr") (is_element_named "a") tree.
Proof.
  exists footer_tree, hr_element, anchor_element.
  split; [apply render_value|].
  split; [apply dividers_of_footer|].
  split; [apply anchors_of_footer|].
  apply (positions_precede _ _ _ 1 2); [reflexivity | reflexivity | lia].
Qed.

(** C4: [render] is deterministic: any two calls, on any instances and in
    any states of the world, return the same tree, whose static markup is
    one and the same string; a call changes nothing in the world. *)
Theorem render_deterministic (this1 this2 : Component JsValue) (w1 w2 : World) :
  fst (render this1 w1) = fst (render this2 w2) /\
  snd (render this1 w1) = w1 /\
  exists tree markup,
    fst (render this1 w1) = Normal tree /\
    fst (render this2 w2) = Normal tree /\
    renderToStaticMarkup tree = Normal markup.
Proof.
  rewrite !render_returns. cbn [fst snd].
  split; [reflexivity|]. split; [reflexivity|].
  exists footer_tree, footer_markup.
  split; [reflexivity|]. split; [reflexivity|].
  apply footer_static_markup.
Qed.

(** C5: the root of the rendered tree is a div container whose class
    attribute has the centering class text-center and the vertical margin
    classes mt-5 and mb-3, and the hr and the anchor are among its
    children. *)
Theorem render_root_container this w :
  exists tree hr a,
    fst (render this w) = Normal tree /\
    is_element_named "div" tree = true /\
    has_class "text-center" tree = true /\
    has_class "mt-5" tree = true /\
    has_class "mb-3" tree = true /\
    In hr (childNodes tree) /\ is_element_named "hr" hr = true /\
    In a (childNodes tree) /\ is_element_named "a" a = true.
Proof.
  exists footer_tree, hr_element, anchor_element.
  split; [apply render_value|].
  repeat split; try reflexivity; simpl; auto.
Qed.

(** X4: the link text sits in a bare small element.  The only child of
    the anchor is a small element, that element carries no attribute at
    all (no class, no style), and its only child is the text
    SITE BY Leprechaun Design.  This is about the tree only: the size the
    text is drawn at is decided by the host and its stylesheets, which the
    component does not contain. *)
Theorem render_link_text_in_small this w :
  exists tree a s,
    fst (render this w) = Normal tree /\
    elements_by_tag "a" tree = [a] /\
    childNodes a = [s] /\
    is_element_named "small" s = true /\
    attributes s = [] /\
    childNodes s = [Text "SITE BY Leprechaun Design"].
Proof.
  exists footer_tree, anchor_element, small_element.
  rewrite render_value. repeat split.
Qed.

(** C7: the class attribute of the anchor is the class name footer-link. *)
Theorem render_link_class this w :
  exists tree a,
    fst (render this w) = Normal tree /\
    elements_by_tag "a" tree = [a] /\
    getAttribute "class" a = Some "footer-link" /\
    has_class "footer-link" a = true.
Proof.
  eexists; eexists.
  split; [apply render_value|].
  split; [apply anchors_of_footer|].
  split; reflexivity.
Qed.

(** C8: [render] cannot fail: every call completes normally with a tree
    and never throws. *)
Theorem render_completes this w :
  completes (fst (render this w)) = true /\
  exists tree, render this w = (Normal tree, w).
Proof.
  split.
  - destruct (render this w) as [c w'] eqn:H.
    rewrite render_returns in H. injection H as <- _. reflexivity.
  - exists footer_tree. apply render_returns.
Qed.

(** C9: the result of [render] does not depend on the instance: instances
    constructed with any props and contexts, and instances holding any
    props, context and state, give the same result. *)
Theorem render_ignores_instance
    (props1 props2 context1 context2 : JsValue) (state1 state2 : option JsValue) w :
  render (new props1 context1) w = render (new props2 context2) w /\
  render (mkComponent props1 context1 state1) w
  = render (mkComponent props2 context2 state2) w.
Proof. split; now rewrite !render_returns. Qed.


End FooterProperties.

(* ================================================================== *)
(** ** Layout of the source between tags *)

Section Layout.

Import Chars JSX React.

Lemma has_non_blank_app (a b : string) :
  has_non_blank (a ++ b) = has_non_blank a || has_non_blank b.
Proof.
  induction a as [|c a IH]; cbn [append has_non_blank]; [reflexivity|].
  destruct (Ascii.eqb c SPACE || Ascii.eqb c TAB); [exact IH | reflexivity].
Qed.

Lemma blank_char_to_space (c : ascii) :
  is_blank c = true -> (if Ascii.eqb c TAB then SPACE else c) = SPACE.
Proof.
  unfold is_blank. intros H.
  destruct (Ascii.eqb_spec c TAB) as [|_]; [reflexivity|].
  rewrite orb_false_r in H. now apply Ascii.eqb_eq.
Qed.

Lemma blank_line_chars (c : ascii) (l : string) :
  has_non_blank (String c l) = false ->
  is_blank c = true /\ has_non_blank l = false.
Proof.
  cbn [has_non_blank]. fold (is_blank c).
  destruct (is_blank c); intros H; [now split | discriminate].
Qed.

Lemma blank_line_trim_leading (l : string) :
  has_non_blank l = false -> trim_leading_spaces (tabs_to_spaces l) = "".
Proof.
  induction l as [|c l IH]; intros H; [reflexivity|].
  apply blank_line_chars in H as [Hc Hl].
  cbn [tabs_to_spaces trim_leading_spaces].
  rewrite (blank_char_to_space c Hc). change (Ascii.eqb SPACE SPACE) with true.
  now apply IH.
Qed.

Lemma blank_line_trim_trailing (l : string) :
  has_non_blank l = false -> trim_trailing_spaces (tabs_to_spaces l) = "".
Proof.
  induction l as [|c l IH]; intros H; [reflexivity|].
  apply blank_line_chars in H as [Hc Hl].
  cbn [tabs_to_spaces trim_trailing_spaces].
  rewrite (IH Hl), (blank_char_to_space c Hc). reflexivity.
Qed.

Lemma split_lines_from_nonempty (s : string) :
  forall cur, 1 <= List.length (split_lines_from cur s).
Proof.
  induction s as [|c s IH]; intros cur; cbn [split_lines_from].
  - simpl. lia.
  - destruct (Ascii.eqb c CR).
    + destruct s as [|d s']; [simpl; lia|].
      destruct (Ascii.eqb d LF); simpl; lia.
    + destruct (Ascii.eqb c LF); [simpl; lia | apply IH].
Qed.

(** Text with a line break in it is at least two lines. *)
Lemma split_lines_from_break (s : string) :
  forall cur, exists_char is_line_break s = true ->
              2 <= List.length (split_lines_from cur s).
Proof.
  induction s as [|c s IH]; intros cur H; cbn [exists_char] in H.
  - discriminate.
  - cbn [split_lines_from]. unfold is_line_break at 1 in H.
    destruct (Ascii.eqb c CR) eqn:Ecr.
    + destruct s as [|d s'].
      * simpl. lia.
      * destruct (Ascii.eqb d LF); cbn [List.length].
        -- pose proof (split_lines_from_nonempty s' ""). lia.
        -- pose proof (split_lines_from_nonempty (String d s') ""). lia.
    + destruct (Ascii.eqb c LF) eqn:Elf.
      * cbn [List.length]. pose proof (split_lines_from_nonempty s ""). lia.
      * apply IH. exact H.
Qed.

(** The lines of text made of blanks and line breaks are all blank. *)
Lemma split_lines_from_blank (n : nat) :
  forall s cur,
    String.length s <= n ->
    forall_chars (fun c => is_blank c || is_line_break c) s = true ->
    has_non_blank cur = false ->
    Forall (fun l => has_non_blank l = false) (split_lines_from cur s).
Proof.
  induction n as [|n IH]; intros s cur Hlen Hs Hcur.
  - destruct s; [|simpl in Hlen; lia]. repeat constructor. exact Hcur.
  - destruct s as [|c s]; [repeat constructor; exact Hcur|].
    cbn [forall_chars] in Hs. apply andb_true_iff in Hs as [Hc Hs].
    cbn [String.length] in Hlen. cbn [split_lines_from].
    unfold is_line_break in Hc.
    destruct (Ascii.eqb c CR) eqn:Ecr.
    + destruct s as [|d s'].
      * repeat constructor. exact Hcur.
      * cbn [forall_chars] in Hs. cbn [String.length] in Hlen.
        destruct (Ascii.eqb d LF); constructor; try exact Hcur.
        -- apply andb_true_iff in Hs as [_ Hs].
           apply IH; [lia | exact Hs | reflexivity].
        -- apply IH; [cbn [String.length]; lia | exact Hs | reflexivity].
    + destruct (Ascii.eqb c LF) eqn:Elf.
      * constructor; [exact Hcur|]. apply IH; [lia | exact Hs | reflexivity].
      * rewrite orb_false_r in Hc.
        apply IH; [lia | exact Hs |].
        rewrite has_non_blank_app, Hcur. cbn [has_non_blank str orb].
        fold (is_blank c). now rewrite Hc.
Qed.

Lemma fold_left_fixed {A B : Type} (f : A -> B -> A) (l : list B) :
  (forall x, In x l -> forall a, f a x = a) ->
  forall a, fold_left f l a = a.
Proof.
  induction l as [|x l IH]; intros H a; cbn [fold_left]; [reflexivity|].
  rewrite (H x (or_introl eq_refl)). apply IH.
  intros y Hy. apply H. now right.
Qed.

(** Text between two tags that is layout only is dropped whole. *)
Lemma cleanJSXText_layout (s : string) :
  is_layout s = true -> cleanJSXText s = "".
Proof.
  unfold is_layout. intros H. apply andb_true_iff in H as [Hall Hbreak].
  pose proof (split_lines_from_break s "" Hbreak) as Hlen.
  pose proof (split_lines_from_blank _ s "" (le_n _) Hall eq_refl) as Hblank.
  unfold cleanJSXText. fold (split_lines s) in Hlen, Hblank. cbv zeta.
  apply fold_left_fixed. intros [i l] Hin acc. cbn [fst snd].
  assert (Hl : has_non_blank l = false).
  { unfold indexed in Hin. apply in_combine_r in Hin.
    rewrite Forall_forall in Hblank. now apply Hblank. }
  destruct (Nat.eqb_spec i 0) as [->|Hi].
  - destruct (Nat.eqb_spec 0 (List.length (split_lines s) - 1)) as [E|_]; [lia|].
    now rewrite (blank_line_trim_trailing l Hl).
  - rewrite (blank_line_trim_leading l Hl).
    now destruct (Nat.eqb i (List.length (split_lines s) - 1)).
Qed.

Lemma child_nodes_layout (s : string) :
  is_layout s = true -> child_nodes (JSXText s) = [].
Proof. intros H. unfold child_nodes. now rewrite (cleanJSXText_layout s H). Qed.

End Layout.

(* ================================================================== *)
(** ** The whole of the rendered tree *)

Section FooterInventory.

Import Chars JS React JSX DOM Footer.

Variables JsValue World : Type.

Implicit Types (this : Component JsValue) (w : World).

Lemma footer_document_order :
  document_order footer_tree
  = [footer_tree; hr_element; anchor_element; small_element;
     Text "SITE BY Leprechaun Design"].
Proof. reflexivity. Qed.

(** X1: the layout of lines 8 to 11 is free.  Whatever stands between the
    tags of the div and its two children, as long as it is spaces, tabs
    and line breaks with one line break at least (other indentation, tabs
    for spaces, CR LF line ends, empty lines), [render] returns the tree it
    returns for the file as it is. *)
Theorem render_layout_independent this w (ws1 ws2 ws3 : string) :
  is_layout ws1 = true -> is_layout ws2 = true -> is_layout ws3 = true ->
  render this w =
  (Normal
     (jsx "div" [("className", "text-center mt-5 mb-3")]
        [ JSXText ws1;
          JSXElement (jsx "hr" [] []);
          JSXText ws2;
          JSXElement
            (jsx "a" [("href", "https://humblepage.com");
                      ("className", "footer-link")]
               [ JSXElement
                   (jsx "small" []
                      [ JSXText "SITE BY Leprechaun Design" ]) ]);
          JSXText ws3 ]),
   w).
Proof.
  intros H1 H2 H3. rewrite render_returns.
  unfold jsx at 1. cbn [flat_map].
  rewrite (child_nodes_layout ws1 H1), (child_nodes_layout ws2 H2),
    (child_nodes_layout ws3 H3).
  reflexivity.
Qed.

(** X2: the attributes of the rendered tree are class and href and no
    other: an attribute name is carried by some node of the tree exactly
    when it is one of these two.  No node has an event handler, a style, an
    id, a rel or a target attribute. *)
Theorem render_attribute_names this w (name : string) :
  exists tree,
    fst (render this w) = Normal tree /\
    existsb (hasAttribute name) (document_order tree)
    = existsb (String.eqb name) ["class"; "href"].
Proof.
  exists footer_tree. split; [apply render_value|].
  rewrite footer_document_order. unfold hasAttribute. cbn [existsb].
  change (attributes footer_tree) with [("class", "text-center mt-5 mb-3")].
  change (attributes hr_element) with (@nil (string * string)).
  change (attributes anchor_element)
    with [("href", "https://humblepage.com"); ("class", "footer-link")].
  change (attributes small_element) with (@nil (string * string)).
  cbn [existsb fst attributes].
  rewrite (String.eqb_sym name "class"), (String.eqb_sym name "href").
  destruct (String.eqb "class" name), (String.eqb "href" name); reflexivity.
Qed.

(** X3: the elements of the rendered tree are one div, one hr, one a and
    one small, and no other: for every tag, the number of elements with
    that tag is 1 if the tag is one of the four and 0 if not. *)
Theorem render_element_count this w (tag : string) :
  exists tree,
    fst (render this w) = Normal tree /\
    List.length (elements_by_tag tag tree)
    = if existsb (String.eqb tag) ["div"; "hr"; "a"; "small"] then 1 else 0.
Proof.
  exists footer_tree. split; [apply render_value|].
  unfold elements_by_tag. rewrite footer_document_order.
  unfold footer_tree, hr_element, anchor_element, small_element.
  cbn [filter is_element_named existsb].
  rewrite (String.eqb_sym tag "div"), (String.eqb_sym tag "hr"),
    (String.eqb_sym tag "a"), (String.eqb_sym tag "small").
  destruct (String.eqb_spec "div" tag) as [<-|_]; [reflexivity|].
  destruct (String.eqb_spec "hr" tag) as [<-|_]; [reflexivity|].
  destruct (String.eqb_spec "a" tag) as [<-|_]; [reflexivity|].
  destruct (String.eqb_spec "small" tag) as [<-|_]; reflexivity.
Qed.

End FooterInventory.

(** The file saved with CR LF line ends, indented with a tab, and with an
    empty line before the closing tag. *)
Lemma render_layout_independent_witness :
  Chars.is_layout (String Chars.CR (String Chars.LF (Chars.str Chars.TAB))) = true /\
  Chars.is_layout (Chars.str Chars.LF ++ Chars.spaces 2) = true /\
  Chars.is_layout (Chars.str Chars.LF ++ Chars.str Chars.LF) = true /\
  Footer.render (World := nat) (Footer.new 0 1) 2 =
  (JS.Normal
     (JSX.jsx "div" [("className", "text-center mt-5 mb-3")]
        [ JSX.JSXText (String Chars.CR (String Chars.LF (Chars.str Chars.TAB)));
          JSX.JSXElement (JSX.jsx "hr" [] []);
          JSX.JSXText (Chars.str Chars.LF ++ Chars.spaces 2);
          JSX.JSXElement
            (JSX.jsx "a" [("href", "https://humblepage.com");
                          ("className", "footer-link")]
               [ JSX.JSXElement
                   (JSX.jsx "small" []
                      [ JSX.JSXText "SITE BY Leprechaun Design" ]) ]);
          JSX.JSXText (Chars.str Chars.LF ++ Chars.str Chars.LF) ]),
   2).
Proof.
  split; [reflexivity|]. split; [reflexivity|]. split; [reflexivity|].
  apply (render_layout_independent nat nat); reflexivity.
Defined.
